(** * Verification of the MCP / skills security scanner scripts

    Shallow embedding of [scripts/python/scan_mcp_servers.py] (class
    [MCPSecurityScanner]) and of the exit-code logic of
    [scripts/python/scan_claude_skills.py] ([main]).

    Conventions of the embedding:
    - JSON documents and the Python values that end up in the JSON report are
      values of [json]; Python's [None] is [JNull];
    - a Python [dict] whose iteration order matters is an association list in
      insertion order, with [dict_set] for [d[k] = v];
    - code that may raise returns a [result]; a [try ... except Exception]
      is a [match] on it;
    - the [mcpscanner] library and the interpreter's renderings ([repr],
      [str] of an exception) are collected in the class [Env];
    - a server's configuration is a JSON object, as the source annotates
      it ([Dict[str, Any]]); its fields are arbitrary JSON values;
    - console output ([print]) is not modelled. *)

From Stdlib Require Import List String Ascii Bool Arith ZArith Lia Permutation.
Import ListNotations.
Open Scope string_scope.

Set Implicit Arguments.
Set Warnings "-register-all".

(** ** Values, dictionaries, strings *)

Inductive json : Type :=
| JNull
| JBool (b : bool)
| JInt (n : Z)
| JFloat (literal : string)
| JStr (s : string)
| JArr (items : list json)
| JObj (fields : list (string * json)).

Definition dict (V : Type) : Type := list (string * V).

(** [d.get(k)] seen as an option: the first binding of [k]. *)
Fixpoint dict_lookup {V : Type} (k : string) (d : dict V) : option V :=
  match d with
  | [] => None
  | (k', v) :: d' => if String.eqb k k' then Some v else dict_lookup k d'
  end.

(** [d.get(k, default)] *)
Definition dict_get {V : Type} (k : string) (default : V) (d : dict V) : V :=
  match dict_lookup k d with
  | Some v => v
  | None => default
  end.

(** [d[k] = v]: overwrite in place, or append a new key at the end. *)
Fixpoint dict_set {V : Type} (k : string) (v : V) (d : dict V) : dict V :=
  match d with
  | [] => [(k, v)]
  | (k', v') :: d' =>
      if String.eqb k k' then (k, v) :: d' else (k', v') :: dict_set k v d'
  end.

Definition dict_keys {V : Type} (d : dict V) : list string := map fst d.

(** [s.startswith(p)] *)
Fixpoint startswith (p s : string) : bool :=
  match p, s with
  | EmptyString, _ => true
  | String a p', String b s' => if Ascii.eqb a b then startswith p' s' else false
  | String _ _, EmptyString => false
  end.

(** [p in s] for two strings: [p] occurs somewhere in [s]. *)
Fixpoint contains (p s : string) : bool :=
  startswith p s ||
  match s with
  | EmptyString => false
  | String _ s' => contains p s'
  end.

(** [s[n:]] *)
Fixpoint drop_chars (n : nat) (s : string) : string :=
  match n, s with
  | O, _ => s
  | S n', String _ s' => drop_chars n' s'
  | S _, EmptyString => EmptyString
  end.

(** [s.replace(old, new)] for a non-empty [old]: every non-overlapping
    occurrence, leftmost first.  [skip] counts the characters of the
    occurrence just replaced that are still to be dropped. *)
Fixpoint replace_from (old new : string) (skip : nat) (s : string) : string :=
  match s with
  | EmptyString => EmptyString
  | String c s' =>
      match skip with
      | S k => replace_from old new k s'
      | O =>
          if startswith old s
          then new ++ replace_from old new (String.length old - 1) s'
          else String c (replace_from old new 0 s')
      end
  end.

(** With an empty [old] Python puts [new] before every character and at the
    end. *)
Fixpoint interleave (new s : string) : string :=
  match s with
  | EmptyString => new
  | String c s' => new ++ String c (interleave new s')
  end.

Definition str_replace (old new s : string) : string :=
  match old with
  | EmptyString => interleave new s
  | String _ _ => replace_from old new 0 s
  end.

(** ** Exceptions *)

Inductive exn : Type :=
| KeyError (key : string)
| AttributeError (owner attr : string)
| TypeError (operation : string) (operand : json)
| Exception (message : string).

Inductive result (A : Type) : Type :=
| Ok (a : A)
| Raise (e : exn).

Arguments Ok {A} a.
Arguments Raise {A} e.

Definition bind {A B : Type} (m : result A) (f : A -> result B) : result B :=
  match m with
  | Ok a => f a
  | Raise e => Raise e
  end.

Notation "x <- m ;; k" := (bind m (fun x => k))
  (at level 61, m at next level, right associativity).

(** [d[k]] *)
Definition dict_item {V : Type} (k : string) (d : dict V) : result V :=
  match dict_lookup k d with
  | Some v => Ok v
  | None => Raise (KeyError k)
  end.

Fixpoint map_result {A B : Type} (f : A -> result B) (l : list A) : result (list B) :=
  match l with
  | [] => Ok []
  | a :: l' =>
      b <- f a ;;
      bs <- map_result f l' ;;
      Ok (b :: bs)
  end.

(** ** What the analyzers hand back *)

Inductive AnalyzerEnum : Type := YARA | LLM | API.

(** [finding.severity]: an object with a [value] attribute (an enum member),
    or any other object, known here by what [str] makes of it. *)
Inductive RawSeverity : Type :=
| WithValue (value : json)
| Plain (text : string).

(** A finding object.  Attributes the source reads without asking are
    fields; attributes it probes with [hasattr], and [summary], which it
    reads only when [description] is missing, are optional ([None] = the
    object has no such attribute). *)
Record RawFinding : Type := {
  rf_severity : RawSeverity;
  rf_category : option json;
  rf_description : option json;
  rf_summary : option json;
  rf_threat_names : option json
}.

Record RawAnalyzerResult : Type := {
  ar_is_safe : option bool;
  ar_findings : option (list RawFinding)
}.

Record RawToolResult : Type := {
  tool_name : json;
  tool_description : json;
  is_safe : bool;
  status : json;
  findings : list RawFinding;
  analyzer_results : option (dict RawAnalyzerResult)
}.

Record StdioServer : Type := {
  command : json;
  args : json;
  env : json
}.

Inductive Auth : Type :=
| Bearer (bearer_token : string).

(** ** The serializable report *)

Record Finding : Type := {
  f_severity : json;
  f_category : json;
  f_description : json;
  f_threat_names : json
}.

Record AnalyzerVerdict : Type := {
  av_is_safe : bool;
  av_findings_count : nat
}.

Record ToolData : Type := {
  td_name : json;
  td_description : json;
  td_is_safe : bool;
  td_status : json;
  td_findings : list Finding;
  td_analyzer_results : dict AnalyzerVerdict
}.

(** A per-server entry of [results["servers"]].  [sr_info] holds the
    descriptive keys that differ between the four places that build such an
    entry ([server_type], [command], [args], [url]). *)
Record ServerResult : Type := {
  sr_info : dict json;
  sr_status : string;
  sr_tools : list ToolData;
  sr_error : option string
}.

(** [results["summary"]]: a dictionary created with seven keys and only ever
    updated in place at those keys. *)
Record Summary : Type := {
  total_servers : nat;
  scanned_servers : nat;
  failed_servers : nat;
  total_tools : nat;
  safe_tools : nat;
  unsafe_tools : nat;
  total_findings : nat
}.

(** The summary as the dictionary written to the report, key by key. *)
Definition summary_items (s : Summary) : dict nat :=
  [ ("total_servers", total_servers s);
    ("scanned_servers", scanned_servers s);
    ("failed_servers", failed_servers s);
    ("total_tools", total_tools s);
    ("safe_tools", safe_tools s);
    ("unsafe_tools", unsafe_tools s);
    ("total_findings", total_findings s) ].

Record Results : Type := {
  servers : dict ServerResult;
  summary : Summary
}.

Definition ServerConfig : Type := dict json.

(** ** The environment of the script

    [py_repr] and [exn_str] are the interpreter's [repr(v)] and [str(e)];
    the two scan functions are [mcpscanner]'s [Scanner] methods.  Building
    the [StdioServer] object and scanning it are both library code inside
    the same [try], so an error of the constructor is one of the exceptions
    [scan_stdio_server_tools] can answer with. *)
Class Env : Type := {
  py_repr : json -> string;
  exn_str : exn -> string;
  scan_stdio_server_tools :
    StdioServer -> list AnalyzerEnum -> result (list RawToolResult);
  scan_remote_server_tools :
    json -> list AnalyzerEnum -> option Auth -> result (list RawToolResult)
}.

(** [f"{v}"]: a string is inserted as it is, every other JSON value through
    its [repr]. *)
Definition format_value `{Env} (v : json) : string :=
  match v with
  | JStr s => s
  | _ => py_repr v
  end.

Record MCPSecurityScanner : Type := {
  self_analyzers : list AnalyzerEnum;
  self_mcpServers : dict ServerConfig
}.

(** ** Result normalizer: [_process_tool_results] *)

(** The dictionary appended for one finding. *)
Definition process_finding (finding : RawFinding) : result Finding :=
  let severity :=
    match rf_severity finding with
    | WithValue v => v
    | Plain text => JStr text
    end in
  let category :=
    match rf_category finding with
    | Some c => c
    | None => JNull
    end in
  description <-
    match rf_description finding with
    | Some d => Ok d
    | None =>
        match rf_summary finding with
        | Some s => Ok s
        | None => Raise (AttributeError "finding" "summary")
        end
    end ;;
  let threat_names :=
    match rf_threat_names finding with
    | Some t => t
    | None => JArr []
    end in
  Ok {| f_severity := severity;
        f_category := category;
        f_description := description;
        f_threat_names := threat_names |}.

Definition process_analyzer_result (r : RawAnalyzerResult) : AnalyzerVerdict :=
  {| av_is_safe :=
       match ar_is_safe r with
       | Some b => b
       | None => true
       end;
     av_findings_count :=
       match ar_findings r with
       | Some fs => List.length fs
       | None => 0
       end |}.

Definition process_tool_result (tool_result : RawToolResult) : result ToolData :=
  fs <- map_result process_finding (findings tool_result) ;;
  let ars :=
    match analyzer_results tool_result with
    | Some items =>
        fold_left
          (fun acc item => dict_set (fst item) (process_analyzer_result (snd item)) acc)
          items []
    | None => []
    end in
  Ok {| td_name := tool_name tool_result;
        td_description := tool_description tool_result;
        td_is_safe := is_safe tool_result;
        td_status := status tool_result;
        td_findings := fs;
        td_analyzer_results := ars |}.

Definition _process_tool_results (tool_results : list RawToolResult)
  : result (list ToolData) :=
  map_result process_tool_result tool_results.

(** ** Transport strategies *)

Section Strategies.
Context `{Env}.
Variable self : MCPSecurityScanner.

(** The body of the [try] of [scan_stdio_server]. *)
Definition scan_stdio_server_try (server_config : ServerConfig)
  : result (list ToolData) :=
  cmd <- dict_item "command" server_config ;;
  let stdio_server :=
    {| command := cmd;
       args := dict_get "args" (JArr []) server_config;
       env := dict_get "env" JNull server_config |} in
  tool_results <- scan_stdio_server_tools stdio_server (self_analyzers self) ;;
  _process_tool_results tool_results.

Definition scan_stdio_server (server_name : string) (server_config : ServerConfig)
  : ServerResult :=
  let info :=
    [ ("server_type", JStr "stdio");
      ("command", dict_get "command" JNull server_config);
      ("args", dict_get "args" (JArr []) server_config) ] in
  match scan_stdio_server_try server_config with
  | Ok tools =>
      {| sr_info := info; sr_status := "completed"; sr_tools := tools; sr_error := None |}
  | Raise e =>
      {| sr_info := info; sr_status := "failed"; sr_tools := [];
         sr_error := Some (exn_str e) |}
  end.

(** ["Authorization" in headers], for whatever JSON value [headers] is. *)
Definition has_authorization (headers : json) : result bool :=
  match headers with
  | JObj d =>
      Ok (match dict_lookup "Authorization" d with
          | Some _ => true
          | None => false
          end)
  | JStr s => Ok (contains "Authorization" s)
  | JArr items =>
      Ok (existsb
            (fun v => match v with
                      | JStr s => String.eqb s "Authorization"
                      | _ => false
                      end) items)
  | _ => Raise (TypeError "in" headers)
  end.

(** [headers["Authorization"]] *)
Definition authorization_item (headers : json) : result json :=
  match headers with
  | JObj d => dict_item "Authorization" d
  | _ => Raise (TypeError "getitem" headers)
  end.

(** The first statements of the [try] of [scan_http_server]: the value of
    [auth] when the scan call is reached. *)
Definition extract_auth (server_config : ServerConfig) : result (option Auth) :=
  let headers := dict_get "headers" (JObj []) server_config in
  present <- has_authorization headers ;;
  if (present : bool) then
    auth_header <- authorization_item headers ;;
    match auth_header with
    | JStr s =>
        if startswith "Bearer " s
        then Ok (Some (Bearer (str_replace "Bearer " "" s)))
        else Ok None
    | _ => Raise (AttributeError "auth_header" "startswith")
    end
  else Ok None.

(** The body of the [try] of [scan_http_server]. *)
Definition scan_http_server_try (server_config : ServerConfig)
  : result (list ToolData) :=
  auth <- extract_auth server_config ;;
  url <- dict_item "url" server_config ;;
  tool_results <- scan_remote_server_tools url (self_analyzers self) auth ;;
  _process_tool_results tool_results.

Definition scan_http_server (server_name : string) (server_config : ServerConfig)
  : ServerResult :=
  let info :=
    [ ("server_type", JStr "http");
      ("url", dict_get "url" JNull server_config) ] in
  match scan_http_server_try server_config with
  | Ok tools =>
      {| sr_info := info; sr_status := "completed"; sr_tools := tools; sr_error := None |}
  | Raise e =>
      {| sr_info := info; sr_status := "failed"; sr_tools := [];
         sr_error := Some (exn_str e) |}
  end.

End Strategies.

(** ** Scan orchestrator: [scan_all_servers] *)

(** The two strategy methods as the dispatch block sees them: a call answers
    with a server entry or raises.  The [try] of the dispatch block is
    there for whatever escapes a strategy's own [try]. *)
Class Strategy : Type := {
  stdio_strategy : string -> ServerConfig -> result ServerResult;
  http_strategy : string -> ServerConfig -> result ServerResult
}.

(** [results] as [__init__] leaves it. *)
Definition summary_init : Summary :=
  {| total_servers := 0;
     scanned_servers := 0;
     failed_servers := 0;
     total_tools := 0;
     safe_tools := 0;
     unsafe_tools := 0;
     total_findings := 0 |}.

Definition results_init : Results :=
  {| servers := []; summary := summary_init |}.

(** [v == s] for a JSON value and a string literal. *)
Definition json_eq_str (v : json) (s : string) : bool :=
  match v with
  | JStr s' => String.eqb s' s
  | _ => false
  end.

(** "Update summary statistics": the aggregation of one server entry. *)
Definition update_summary (server_result : ServerResult) (s : Summary) : Summary :=
  if String.eqb (sr_status server_result) "completed" then
    {| total_servers := total_servers s;
       scanned_servers := scanned_servers s + 1;
       failed_servers := failed_servers s;
       total_tools := total_tools s + List.length (sr_tools server_result);
       safe_tools :=
         safe_tools s + List.length (filter td_is_safe (sr_tools server_result));
       unsafe_tools :=
         unsafe_tools s
         + List.length (filter (fun t => negb (td_is_safe t)) (sr_tools server_result));
       total_findings :=
         total_findings s
         + list_sum (map (fun t => List.length (td_findings t)) (sr_tools server_result)) |}
  else if String.eqb (sr_status server_result) "failed" then
    {| total_servers := total_servers s;
       scanned_servers := scanned_servers s;
       failed_servers := failed_servers s + 1;
       total_tools := total_tools s;
       safe_tools := safe_tools s;
       unsafe_tools := unsafe_tools s;
       total_findings := total_findings s |}
  else s.

(** [summary["failed_servers"] += 1] of the [except] clause. *)
Definition count_failure (s : Summary) : Summary :=
  {| total_servers := total_servers s;
     scanned_servers := scanned_servers s;
     failed_servers := failed_servers s + 1;
     total_tools := total_tools s;
     safe_tools := safe_tools s;
     unsafe_tools := unsafe_tools s;
     total_findings := total_findings s |}.

Definition set_total_servers (n : nat) (s : Summary) : Summary :=
  {| total_servers := n;
     scanned_servers := scanned_servers s;
     failed_servers := failed_servers s;
     total_tools := total_tools s;
     safe_tools := safe_tools s;
     unsafe_tools := unsafe_tools s;
     total_findings := total_findings s |}.

Section Orchestrator.
Context `{Env} `{Strategy}.

Definition skipped_result (server_type : json) : ServerResult :=
  {| sr_info := [("server_type", server_type)];
     sr_status := "skipped";
     sr_tools := [];
     sr_error := Some ("Unsupported server type: " ++ format_value server_type) |}.

Definition error_result (e : exn) : ServerResult :=
  {| sr_info := [];
     sr_status := "error";
     sr_tools := [];
     sr_error := Some (exn_str e) |}.

(** The [if]/[elif]/[else] on [server_type]. *)
Definition dispatch (server_name : string) (server_config : ServerConfig)
  : result ServerResult :=
  let server_type := dict_get "type" (JStr "unknown") server_config in
  if json_eq_str server_type "stdio" then stdio_strategy server_name server_config
  else if json_eq_str server_type "http" then http_strategy server_name server_config
  else Ok (skipped_result server_type).

(** One iteration of the loop.  Nothing after the dispatch can raise, so
    the [except] clause always finds [results] as the iteration found it. *)
Definition scan_server (server_name : string) (server_config : ServerConfig)
    (results : Results) : Results :=
  match dispatch server_name server_config with
  | Ok server_result =>
      {| servers := dict_set server_name server_result (servers results);
         summary := update_summary server_result (summary results) |}
  | Raise e =>
      {| servers := dict_set server_name (error_result e) (servers results);
         summary := count_failure (summary results) |}
  end.

Definition scan_loop (mcpServers : dict ServerConfig) (results : Results) : Results :=
  fold_left (fun r item => scan_server (fst item) (snd item) r) mcpServers results.

Definition scan_all_servers (mcpServers : dict ServerConfig) (results : Results)
  : Results :=
  scan_loop mcpServers
    {| servers := servers results;
       summary := set_total_servers (List.length mcpServers) (summary results) |}.

End Orchestrator.

(** The strategies of the class itself: both catch everything their own
    [try] raises, so they always answer. *)
Definition own_strategy `{Env} (self : MCPSecurityScanner) : Strategy :=
  {| stdio_strategy := fun n c => Ok (scan_stdio_server self n c);
     http_strategy := fun n c => Ok (scan_http_server self n c) |}.

(** A whole run of a freshly constructed scanner. *)
Definition run `{Env} (self : MCPSecurityScanner) : Results :=
  @scan_all_servers _ (own_strategy self) (self_mcpServers self) results_init.

(** ** Exit signalling of [scan_claude_skills.py] *)

Module Skills.





End Skills.

(** ** Vocabulary of the statements *)

Section Vocabulary.
Context `{Env} `{Strategy}.

(** What one iteration leaves in [results["servers"]] for its server. *)
Definition entry (server_name : string) (server_config : ServerConfig)
  : ServerResult :=
  match dispatch server_name server_config with
  | Ok server_result => server_result
  | Raise e => error_result e
  end.

Definition entries (mcpServers : dict ServerConfig) : dict ServerResult :=
  map (fun item => (fst item, entry (fst item) (snd item))) mcpServers.

(** What one iteration does to the summary. *)
Definition aggregate (outcome : result ServerResult) (s : Summary) : Summary :=
  match outcome with
  | Ok server_result => update_summary server_result s
  | Raise _ => count_failure s
  end.

End Vocabulary.

(** The [try] body the dispatch reaches for a server, if any: the strategy
    invocation proper. *)
Definition strategy_invocation `{Env} (self : MCPSecurityScanner)
    (server_config : ServerConfig) : option (result (list ToolData)) :=
  let server_type := dict_get "type" (JStr "unknown") server_config in
  if json_eq_str server_type "stdio"
  then Some (scan_stdio_server_try self server_config)
  else if json_eq_str server_type "http"
  then Some (scan_http_server_try self server_config)
  else None.

Definition has_status (st : string) (r : ServerResult) : bool :=
  String.eqb (sr_status r) st.

(** Number of entries with a given status. *)
Definition count_status (st : string) (d : dict ServerResult) : nat :=
  List.length (filter (fun e => has_status st (snd e)) d).

(** Sum of [len(tools)] over the entries with status [completed]. *)
Definition completed_tools (d : dict ServerResult) : nat :=
  list_sum
    (map (fun e => if has_status "completed" (snd e)
                   then List.length (sr_tools (snd e)) else 0) d).

(** Sum of [len(findings)] over the tools of the [completed] entries. *)
Definition completed_findings (d : dict ServerResult) : nat :=
  list_sum
    (map (fun e => if has_status "completed" (snd e)
                   then list_sum (map (fun t => List.length (td_findings t))
                                      (sr_tools (snd e)))
                   else 0) d).

(** The fold of the aggregator over a sequence of server entries. *)
Definition fold_results (rs : list ServerResult) (s : Summary) : Summary :=
  fold_left (fun acc r => update_summary r acc) rs s.

(** A strategy answers only with [completed] or [failed] entries. *)
Definition answers_terminal (S : Strategy) : Prop :=
  forall n c r,
    (stdio_strategy n c = Ok r \/ http_strategy n c = Ok r) ->
    sr_status r = "completed" \/ sr_status r = "failed".

(** ** Sample environments *)

Module Sample.

Definition sample_exn_str (e : exn) : string :=
  match e with
  | KeyError k => "'" ++ k ++ "'"
  | AttributeError o a => o ++ " has no attribute " ++ a
  | TypeError op _ => "bad operand for " ++ op
  | Exception m => m
  end.

Definition high_finding : RawFinding :=
  {| rf_severity := Plain "HIGH";
     rf_category := None;
     rf_description := None;
     rf_summary := Some (JStr "tool poisoning");
     rf_threat_names := None |}.

Definition tool_with_finding : RawToolResult :=
  {| tool_name := JStr "run";
     tool_description := JStr "runs a command";
     is_safe := false;
     status := JStr "completed";
     findings := [high_finding];
     analyzer_results := None |}.

Definition clean_tool : RawToolResult :=
  {| tool_name := JStr "echo";
     tool_description := JStr "echoes its input";
     is_safe := true;
     status := JStr "completed";
     findings := [];
     analyzer_results := None |}.

(** A library that can start the executable [good-server] only, and reaches
    no remote endpoint.  No sample formats a value that is not a string, so
    [py_repr] is left a placeholder. *)
Definition sample_env : Env :=
  {| py_repr := fun _ => "?";
     exn_str := sample_exn_str;
     scan_stdio_server_tools := fun srv _ =>
       if json_eq_str (command srv) "good-server"
       then Ok [tool_with_finding; clean_tool]
       else Raise (Exception "No such file or directory");
     scan_remote_server_tools := fun _ _ _ =>
       Raise (Exception "connection refused") |}.

Definition local_server : ServerConfig :=
  [("type", JStr "stdio"); ("command", JStr "good-server")].


Definition remote_server : ServerConfig :=
  [("type", JStr "http"); ("url", JStr "http://127.0.0.1:9/mcp")].


(** The end-to-end scenario: a local server with two tools, one of them with
    a HIGH finding, and a remote server that cannot be reached. *)
Definition end_to_end : MCPSecurityScanner :=
  {| self_analyzers := [YARA];
     self_mcpServers := [("local", local_server); ("remote", remote_server)] |}.



Definition repeated_bearer : ServerConfig :=
  [("type", JStr "http"); ("url", JStr "http://127.0.0.1:9/mcp");
   ("headers", JObj [("Authorization", JStr "Bearer a Bearer b")])].

(** A library whose remote scan always fails, naming the credential it was
    called with. *)
Definition echo_env : Env :=
  {| py_repr := fun _ => "?";
     exn_str := sample_exn_str;
     scan_stdio_server_tools := fun _ _ =>
       Raise (Exception "No such file or directory");
     scan_remote_server_tools := fun _ _ auth =>
       Raise (Exception
                match auth with
                | Some (Bearer token) => "rejected bearer token: " ++ token
                | None => "no credential"
                end) |}.

Definition bogus_severity : RawFinding :=
  {| rf_severity := Plain "bogus";
     rf_category := None;
     rf_description := Some (JStr "d");
     rf_summary := None;
     rf_threat_names := None |}.

End Sample.

(** The severity names of the report model. *)
Definition recognized_severity (s : string) : bool :=
  existsb (String.eqb s) ["CRITICAL"; "HIGH"; "MEDIUM"; "LOW"; "INFO"; "SAFE"].

(** ** The rest of the normalizer's vocabulary *)

(** A finding object the normalizer can give a description to. *)
Definition describable (finding : RawFinding) : bool :=
  match rf_description finding, rf_summary finding with
  | None, None => false
  | _, _ => true
  end.

Definition all_describable (tool_results : list RawToolResult) : bool :=
  forallb (fun tr => forallb describable (findings tr)) tool_results.

(** ** [scan_all_servers] on the configuration as loaded *)




Section Document.
Context `{Env} `{Strategy}.



End Document.








(** * Properties *)

Example run_end_to_end :
  summary_items (summary (@run Sample.sample_env Sample.end_to_end)) =
  [("total_servers", 2); ("scanned_servers", 1); ("failed_servers", 1);
   ("total_tools", 2); ("safe_tools", 1); ("unsafe_tools", 1);
   ("total_findings", 1)].
Proof. reflexivity. Qed.

(** ** Strings *)

Lemma replace_from_skip (old new : string) (s : string) :
  forall k, replace_from old new k s = replace_from old new 0 (drop_chars k s).
Proof.
  induction s as [| c s IH]; intros [| k]; simpl; auto.
Qed.

Lemma replace_from_absent (old new : string) (s : string) :
  contains old s = false -> replace_from old new 0 s = s.
Proof.
  induction s as [| c s IH]; intros Hc; [reflexivity |].
  cbn [contains] in Hc. apply orb_false_iff in Hc. destruct Hc as [Hp Hs].
  cbn [replace_from]. rewrite Hp. f_equal. apply IH. exact Hs.
Qed.

Lemma strip_prefix_by_replace (p s : string) :
  p <> "" ->
  startswith p s = true ->
  contains p (drop_chars (String.length p) s) = false ->
  str_replace p "" s = drop_chars (String.length p) s.
Proof.
  intros Hp Hs Hc. destruct p as [| a p']; [congruence |].
  unfold str_replace. destruct s as [| c s']; [discriminate Hs |].
  cbn [replace_from]. rewrite Hs. cbn [String.append].
  rewrite replace_from_skip.
  cbn [String.length Nat.sub]. rewrite Nat.sub_0_r.
  cbn [String.length drop_chars] in Hc.
  apply replace_from_absent. exact Hc.
Qed.

(** ** Result normalizer *)

(** C2, as the code has it: the severity of a finding is never parsed.  It
    is [severity.value] when the severity object has a [value], and
    [str(severity)] otherwise, whatever that text is; the only way a finding
    fails to normalize is by having neither [description] nor [summary]. *)
Theorem severity_passes_through :
  forall sev cat descr summ thr,
    match process_finding
            {| rf_severity := sev; rf_category := cat; rf_description := descr;
               rf_summary := summ; rf_threat_names := thr |} with
    | Ok g =>
        f_severity g = match sev with
                       | WithValue v => v
                       | Plain text => JStr text
                       end
    | Raise e =>
        descr = None /\ summ = None /\ e = AttributeError "finding" "summary"
    end.
Proof.
  intros sev cat [d |] [s |] thr; cbn; auto.
Qed.

(** C2, refuted as stated: a finding whose severity is the unrecognized
    text [bogus] normalizes to severity [bogus], not to [INFO]. *)
Lemma unparseable_severity_not_info :
  recognized_severity "bogus" = false /\
  (exists g, process_finding Sample.bogus_severity = Ok g /\
             f_severity g = JStr "bogus") /\
  ~ (exists g, process_finding Sample.bogus_severity = Ok g /\
               f_severity g = JStr "INFO").
Proof.
  split; [reflexivity |]. split.
  - eexists. split; reflexivity.
  - intros [g [Hg Hs]]. cbn in Hg. inversion Hg; subst g. discriminate Hs.
Qed.

(** C8: a finding without [description] but with [summary] gets the summary
    as its description; a finding with [description] gets that, whether or
    not it also has a [summary]. *)
Theorem description_falls_back_to_summary :
  forall sev cat thr s d summ,
    (exists g,
        process_finding
          {| rf_severity := sev; rf_category := cat; rf_description := None;
             rf_summary := Some s; rf_threat_names := thr |} = Ok g /\
        f_description g = s) /\
    (exists g,
        process_finding
          {| rf_severity := sev; rf_category := cat; rf_description := Some d;
             rf_summary := summ; rf_threat_names := thr |} = Ok g /\
        f_description g = d).
Proof.
  intros. split; eexists; split; reflexivity.
Qed.

(** ** Bearer credential *)

Lemma extract_auth_bearer (server_config : ServerConfig) (token : string) :
  extract_auth server_config = Ok (Some (Bearer token)) <->
  exists d v,
    dict_get "headers" (JObj []) server_config = JObj d /\
    dict_lookup "Authorization" d = Some (JStr v) /\
    startswith "Bearer " v = true /\
    token = str_replace "Bearer " "" v.
Proof.
  unfold extract_auth. split.
  - destruct (dict_get "headers" (JObj []) server_config)
      as [| b | n | l | s | items | d];
      cbv [has_authorization authorization_item bind]; intros Heq;
      try discriminate Heq.
    + destruct (contains "Authorization" s); discriminate Heq.
    + destruct (existsb _ items); discriminate Heq.
    + unfold dict_item in Heq.
      destruct (dict_lookup "Authorization" d) as [v |] eqn:Hl; [| discriminate Heq].
      destruct v as [| b | n | l | s | items | d']; try discriminate Heq.
      destruct (startswith "Bearer " s) eqn:Hs; [| discriminate Heq].
      inversion Heq. exists d, s. auto.
  - intros (d & v & Hh & Hl & Hs & ->). rewrite Hh.
    cbv [has_authorization authorization_item bind dict_item].
    rewrite Hl. cbv beta iota. rewrite Hs. reflexivity.
Qed.

Lemma extract_auth_clean_token (server_config : ServerConfig) (d : dict json)
    (v : string) :
  dict_get "headers" (JObj []) server_config = JObj d ->
  dict_lookup "Authorization" d = Some (JStr v) ->
  startswith "Bearer " v = true ->
  contains "Bearer " (drop_chars 7 v) = false ->
  extract_auth server_config = Ok (Some (Bearer (drop_chars 7 v))).
Proof.
  intros Hh Hl Hs Hc. apply extract_auth_bearer. exists d, v.
  repeat split; auto. symmetry.
  apply (@strip_prefix_by_replace "Bearer " v); [discriminate | exact Hs | exact Hc].
Qed.

(** C5 at the header [Authorization: Bearer a Bearer b]: the credential
    handed to the scan is [a b], while the header without its prefix is
    [a Bearer b]. *)
Theorem bearer_token_at_repeated_prefix :
  extract_auth Sample.repeated_bearer = Ok (Some (Bearer "a b")) /\
  sr_error (@scan_http_server Sample.echo_env Sample.end_to_end "remote"
              Sample.repeated_bearer)
    = Some "rejected bearer token: a b" /\
  drop_chars 7 "Bearer a Bearer b" = "a Bearer b".
Proof.
  repeat split; reflexivity.
Qed.

(** ** Exit signalling *)


(** ** Dictionaries *)

Lemma dict_set_fresh {V : Type} (k : string) (v : V) (d : dict V) :
  ~ In k (dict_keys d) -> dict_set k v d = (d ++ [(k, v)])%list.
Proof.
  induction d as [| [k' v'] d IH]; cbn; intros Hk; [reflexivity |].
  destruct (String.eqb_spec k k') as [-> | Hne].
  - exfalso. apply Hk. now left.
  - f_equal. apply IH. intros Hin. apply Hk. now right.
Qed.


Lemma dict_lookup_summary_items (k : string) (s : Summary) :
  dict_lookup k (summary_items s) <> None <->
  In k ["total_servers"; "scanned_servers"; "failed_servers"; "total_tools";
        "safe_tools"; "unsafe_tools"; "total_findings"].
Proof.
  unfold summary_items. cbn [dict_lookup In].
  repeat match goal with
         | |- context [String.eqb k ?c] =>
             destruct (String.eqb_spec k c) as [-> | ?];
             [split; [intros _; tauto | intros _; discriminate] |]
         end.
  split; [congruence | intuition congruence].
Qed.

(** ** Aggregator *)

Lemma filter_complement_length {A : Type} (p : A -> bool) (l : list A) :
  List.length (filter p l) + List.length (filter (fun a => negb (p a)) l)
  = List.length l.
Proof.
  induction l as [| a l IH]; cbn; [reflexivity |].
  destruct (p a); cbn; lia.
Qed.

Lemma update_summary_comm (a b : ServerResult) (s : Summary) :
  update_summary a (update_summary b s) = update_summary b (update_summary a s).
Proof.
  unfold update_summary.
  destruct (String.eqb (sr_status a) "completed"),
           (String.eqb (sr_status a) "failed"),
           (String.eqb (sr_status b) "completed"),
           (String.eqb (sr_status b) "failed");
    cbn; try reflexivity; f_equal; lia.
Qed.

Lemma fold_left_permutation {A B : Type} (f : B -> A -> B) :
  (forall a a' b, f (f b a) a' = f (f b a') a) ->
  forall l l', Permutation l l' -> forall b, fold_left f l b = fold_left f l' b.
Proof.
  intros Hcomm l l' Hperm.
  induction Hperm as [| x l l' _ IH | x y l | l l' l'' _ IH1 _ IH2]; intros b; cbn.
  - reflexivity.
  - apply IH.
  - now rewrite Hcomm.
  - now rewrite IH1.
Qed.

(** C7: folding a sequence of server entries into a summary gives the same
    summary for every permutation of the sequence. *)
Theorem fold_results_permutation :
  forall (rs rs' : list ServerResult) (s : Summary),
    Permutation rs rs' -> fold_results rs s = fold_results rs' s.
Proof.
  intros rs rs' s Hperm. unfold fold_results.
  apply fold_left_permutation; [| exact Hperm].
  intros a a' b. apply update_summary_comm.
Qed.

Lemma fold_results_permutation_witness :
  let done := @scan_stdio_server Sample.sample_env Sample.end_to_end
                "local" Sample.local_server in
  let lost := @scan_http_server Sample.sample_env Sample.end_to_end
                "remote" Sample.remote_server in
  Permutation [done; lost] [lost; done] /\
  fold_results [done; lost] summary_init = fold_results [lost; done] summary_init.
Proof.
  intros done lost.
  split; [apply perm_swap |].
  apply (@fold_results_permutation [done; lost] [lost; done] summary_init).
  apply perm_swap.
Defined.

(** ** The loop of the orchestrator *)

Section Loop.
Context `{Env} `{Strategy}.

Lemma scan_server_servers (n : string) (c : ServerConfig) (r : Results) :
  servers (scan_server n c r) = dict_set n (entry n c) (servers r).
Proof.
  unfold scan_server, entry. now destruct (dispatch n c).
Qed.

Lemma scan_server_summary (n : string) (c : ServerConfig) (r : Results) :
  summary (scan_server n c r) = aggregate (dispatch n c) (summary r).
Proof.
  unfold scan_server, aggregate. now destruct (dispatch n c).
Qed.

Lemma scan_loop_servers (l : dict ServerConfig) :
  NoDup (dict_keys l) ->
  forall r,
    (forall k, In k (dict_keys l) -> ~ In k (dict_keys (servers r))) ->
    servers (scan_loop l r) = (servers r ++ entries l)%list.
Proof.
  induction l as [| [n c] l IH]; intros Hnd r Hfresh; cbn.
  - now rewrite app_nil_r.
  - inversion Hnd as [| ? ? Hn Hnd']; subst.
    change (servers (scan_loop l (scan_server n c r))
            = (servers r ++ (n, entry n c) :: entries l)%list).
    assert (Hset : servers (scan_server n c r) = (servers r ++ [(n, entry n c)])%list).
    { rewrite scan_server_servers. apply dict_set_fresh. apply Hfresh. now left. }
    rewrite IH; auto.
    + rewrite Hset, <- app_assoc. reflexivity.
    + intros k Hk. rewrite Hset. unfold dict_keys. rewrite map_app, in_app_iff.
      cbn. intros [Hin | [-> | []]].
      * apply (Hfresh k); [now right | exact Hin].
      * now apply Hn.
Qed.

(** The effect of one iteration on the counters, read off the entry it
    stored. *)
Lemma aggregate_entry (n : string) (c : ServerConfig) (s : Summary) :
  let s' := aggregate (dispatch n c) s in
  let e := entry n c in
  total_servers s' = total_servers s /\
  scanned_servers s' = scanned_servers s + Nat.b2n (has_status "completed" e) /\
  total_tools s' =
    total_tools s + (if has_status "completed" e then List.length (sr_tools e) else 0) /\
  safe_tools s' + unsafe_tools s' =
    safe_tools s + unsafe_tools s
    + (if has_status "completed" e then List.length (sr_tools e) else 0) /\
  total_findings s' =
    total_findings s
    + (if has_status "completed" e
       then list_sum (map (fun t => List.length (td_findings t)) (sr_tools e))
       else 0).
Proof.
  unfold entry, aggregate. destruct (dispatch n c) as [r | e]; cbn.
  - unfold update_summary, has_status.
    pose proof (filter_complement_length td_is_safe (sr_tools r)) as Hf.
    destruct (String.eqb (sr_status r) "completed");
      [| destruct (String.eqb (sr_status r) "failed")]; cbn; repeat split; lia.
  - repeat split; lia.
Qed.

Lemma dispatch_ok_status (n : string) (c : ServerConfig) (r : ServerResult) :
  answers_terminal _ ->
  dispatch n c = Ok r ->
  sr_status r = "completed" \/ sr_status r = "failed" \/ sr_status r = "skipped".
Proof.
  intros Hwb. unfold dispatch.
  destruct (json_eq_str _ "stdio"); [| destruct (json_eq_str _ "http")]; intros Hd.
  - destruct (Hwb n c r); auto.
  - destruct (Hwb n c r); auto.
  - inversion Hd. auto.
Qed.

Lemma aggregate_entry_failed (n : string) (c : ServerConfig) (s : Summary) :
  answers_terminal _ ->
  let e := entry n c in
  failed_servers (aggregate (dispatch n c) s) =
    failed_servers s + Nat.b2n (has_status "failed" e) + Nat.b2n (has_status "error" e)
  /\
  Nat.b2n (has_status "completed" e) + Nat.b2n (has_status "failed" e)
  + Nat.b2n (has_status "error" e) + Nat.b2n (has_status "skipped" e) = 1.
Proof.
  intros Hwb. unfold entry, aggregate.
  destruct (dispatch n c) as [r | e] eqn:Hd; cbn.
  - unfold update_summary, has_status.
    destruct (dispatch_ok_status n c Hwb Hd) as [Hs | [Hs | Hs]];
      rewrite Hs; cbn; lia.
  - lia.
Qed.

Lemma count_status_cons (st : string) (k : string) (e : ServerResult)
    (d : dict ServerResult) :
  count_status st ((k, e) :: d) = Nat.b2n (has_status st e) + count_status st d.
Proof.
  unfold count_status. cbn. now destruct (has_status st e).
Qed.

Lemma completed_tools_cons (k : string) (e : ServerResult) (d : dict ServerResult) :
  completed_tools ((k, e) :: d) =
    (if has_status "completed" e then List.length (sr_tools e) else 0)
    + completed_tools d.
Proof. reflexivity. Qed.

Lemma completed_findings_cons (k : string) (e : ServerResult) (d : dict ServerResult) :
  completed_findings ((k, e) :: d) =
    (if has_status "completed" e
     then list_sum (map (fun t => List.length (td_findings t)) (sr_tools e))
     else 0)
    + completed_findings d.
Proof. reflexivity. Qed.

Lemma scan_loop_cons (n : string) (c : ServerConfig) (l : dict ServerConfig)
    (r : Results) :
  scan_loop ((n, c) :: l) r = scan_loop l (scan_server n c r).
Proof. reflexivity. Qed.

Lemma scan_loop_counters (l : dict ServerConfig) :
  forall r,
    let s := summary r in
    let s' := summary (scan_loop l r) in
    total_servers s' = total_servers s /\
    scanned_servers s' = scanned_servers s + count_status "completed" (entries l) /\
    total_tools s' = total_tools s + completed_tools (entries l) /\
    safe_tools s' + unsafe_tools s' =
      safe_tools s + unsafe_tools s + completed_tools (entries l) /\
    total_findings s' = total_findings s + completed_findings (entries l).
Proof.
  induction l as [| [n c] l IH]; intros r.
  - cbn. repeat split; lia.
  - rewrite scan_loop_cons. specialize (IH (scan_server n c r)).
    rewrite scan_server_summary in IH.
    pose proof (aggregate_entry n c (summary r)) as Hstep.
    cbv zeta in IH, Hstep |- *.
    change (entries ((n, c) :: l)) with ((n, entry n c) :: entries l).
    rewrite count_status_cons, completed_tools_cons, completed_findings_cons.
    lia.
Qed.

Lemma scan_loop_failed (l : dict ServerConfig) :
  answers_terminal _ ->
  forall r,
    failed_servers (summary (scan_loop l r)) =
      failed_servers (summary r)
      + count_status "failed" (entries l) + count_status "error" (entries l)
    /\
    count_status "completed" (entries l) + count_status "failed" (entries l)
    + count_status "error" (entries l) + count_status "skipped" (entries l)
    = List.length l.
Proof.
  intros Hwb. induction l as [| [n c] l IH]; intros r.
  - cbn. lia.
  - rewrite scan_loop_cons. specialize (IH (scan_server n c r)).
    rewrite scan_server_summary in IH.
    pose proof (aggregate_entry_failed n c (summary r) Hwb) as Hstep.
    cbv zeta in Hstep.
    change (entries ((n, c) :: l)) with ((n, entry n c) :: entries l).
    rewrite !count_status_cons. cbn [List.length]. lia.
Qed.


(** After a whole run over a dictionary of servers, [results["servers"]] is
    the dictionary of the entries, in configuration order. *)
Lemma scan_all_servers_servers (l : dict ServerConfig) :
  NoDup (dict_keys l) ->
  servers (scan_all_servers l results_init) = entries l.
Proof.
  intros Hnd. unfold scan_all_servers. rewrite scan_loop_servers; auto.
Qed.

End Loop.

(** ** The strategies of the scanner itself *)

Section Own.
Context `{Env}.
Variable self : MCPSecurityScanner.

Lemma scan_stdio_server_status (n : string) (c : ServerConfig) :
  sr_status (scan_stdio_server self n c) = "completed" \/
  sr_status (scan_stdio_server self n c) = "failed".
Proof.
  unfold scan_stdio_server. destruct (scan_stdio_server_try self c); cbn; auto.
Qed.

Lemma scan_http_server_status (n : string) (c : ServerConfig) :
  sr_status (scan_http_server self n c) = "completed" \/
  sr_status (scan_http_server self n c) = "failed".
Proof.
  unfold scan_http_server. destruct (scan_http_server_try self c); cbn; auto.
Qed.

Lemma own_answers_terminal : answers_terminal (own_strategy self).
Proof.
  intros n c r [Hr | Hr]; cbn in Hr; inversion Hr; subst.
  - apply scan_stdio_server_status.
  - apply scan_http_server_status.
Qed.

(** The entry of a server, by what its strategy invocation did. *)
Lemma own_entry (n : string) (c : ServerConfig) :
  let e := @entry _ (own_strategy self) n c in
  match strategy_invocation self c with
  | Some (Ok tools) =>
      sr_status e = "completed" /\ sr_tools e = tools /\ sr_error e = None
  | Some (Raise x) =>
      sr_status e = "failed" /\ sr_tools e = [] /\ sr_error e = Some (exn_str x)
  | None =>
      sr_status e = "skipped" /\ sr_tools e = []
  end.
Proof.
  unfold entry, dispatch, strategy_invocation.
  destruct (json_eq_str _ "stdio"); [| destruct (json_eq_str _ "http")]; cbn.
  - unfold scan_stdio_server. destruct (scan_stdio_server_try self c); cbn; auto.
  - unfold scan_http_server. destruct (scan_http_server_try self c); cbn; auto.
  - auto.
Qed.

Lemma run_servers :
  NoDup (dict_keys (self_mcpServers self)) ->
  servers (run self) = @entries _ (own_strategy self) (self_mcpServers self).
Proof.
  intros Hnd. unfold run. now apply scan_all_servers_servers.
Qed.


End Own.




(** ** Summary counters *)

(** C3, as the code has it: the summary has exactly seven counters and no
    severity histogram; findings are only counted, [total_findings] being
    the number of findings of the tools of the [completed] entries.  In the
    end-to-end scenario the summary is the seven counters below. *)
Theorem summary_counts_findings_without_histogram :
  forall (E : Env) (self : MCPSecurityScanner),
    NoDup (dict_keys (self_mcpServers self)) ->
    dict_keys (summary_items (summary (run self))) =
      ["total_servers"; "scanned_servers"; "failed_servers"; "total_tools";
       "safe_tools"; "unsafe_tools"; "total_findings"] /\
    total_findings (summary (run self)) = completed_findings (servers (run self)) /\
    summary_items (summary (@run Sample.sample_env Sample.end_to_end)) =
      [("total_servers", 2); ("scanned_servers", 1); ("failed_servers", 1);
       ("total_tools", 2); ("safe_tools", 1); ("unsafe_tools", 1);
       ("total_findings", 1)].
Proof.
  intros E self Hnd. split; [reflexivity |]. split; [| reflexivity].
  rewrite run_servers by exact Hnd. unfold run, scan_all_servers.
  match goal with
  | |- context [scan_loop ?l ?r] =>
      pose proof (@scan_loop_counters _ (own_strategy self) l r) as Hc
  end.
  cbv zeta in Hc. destruct Hc as (_ & _ & _ & _ & Hf).
  rewrite Hf. reflexivity.
Qed.

Lemma end_to_end_names_distinct :
  NoDup (dict_keys (self_mcpServers Sample.end_to_end)).
Proof.
  cbn. repeat constructor; cbn; intuition discriminate.
Defined.

Lemma summary_counts_findings_without_histogram_witness :
  NoDup (dict_keys (self_mcpServers Sample.end_to_end)) /\
  total_findings (summary (@run Sample.sample_env Sample.end_to_end)) =
    completed_findings (servers (@run Sample.sample_env Sample.end_to_end)).
Proof.
  split; [exact end_to_end_names_distinct |].
  exact (proj1 (proj2 (@summary_counts_findings_without_histogram
                         Sample.sample_env Sample.end_to_end
                         end_to_end_names_distinct))).
Defined.

(** C3, refuted as stated: after the end-to-end scenario, whose only finding
    is HIGH, the summary has no [high_count], nor any other severity
    bucket. *)
Lemma end_to_end_has_no_high_count :
  let s := summary (@run Sample.sample_env Sample.end_to_end) in
  dict_lookup "high_count" (summary_items s) <> Some 1 /\
  dict_lookup "high_count" (summary_items s) = None /\
  dict_lookup "critical_count" (summary_items s) = None /\
  dict_lookup "medium_count" (summary_items s) = None /\
  dict_lookup "low_count" (summary_items s) = None /\
  dict_lookup "info_count" (summary_items s) = None.
Proof.
  cbn. repeat split; discriminate.
Qed.

(** C4: after a run over a configuration of N servers, [total_servers] is
    N, safe and unsafe tools add up to [total_tools], [total_tools] is the
    sum of [len(tools)] over the [completed] entries, and scanned, failed
    and skipped servers add up to N. *)
Theorem summary_invariants :
  forall (E : Env) (self : MCPSecurityScanner),
    NoDup (dict_keys (self_mcpServers self)) ->
    let s := summary (run self) in
    let N := List.length (self_mcpServers self) in
    total_servers s = N /\
    safe_tools s + unsafe_tools s = total_tools s /\
    total_tools s = completed_tools (servers (run self)) /\
    scanned_servers s + failed_servers s
    + count_status "skipped" (servers (run self)) = N /\
    scanned_servers s + failed_servers s <= total_servers s.
Proof.
  intros E self Hnd s N. subst s N.
  rewrite run_servers by exact Hnd. unfold run, scan_all_servers.
  change (summary results_init) with summary_init.
  match goal with
  | |- context [scan_loop ?l ?r] =>
      pose proof (@scan_loop_counters _ (own_strategy self) l r) as Hc;
      pose proof (@scan_loop_failed _ (own_strategy self) l
                    (@own_answers_terminal _ self) r) as Hf
  end.
  cbv zeta in Hc. cbn [summary set_total_servers results_init summary_init
                       total_servers scanned_servers failed_servers total_tools
                       safe_tools unsafe_tools total_findings] in Hc, Hf.
  destruct Hc as (Ht & Hs & Htools & Hsu & _). destruct Hf as (Hf & Hsum).
  assert (Herr : count_status "error"
                   (@entries _ (own_strategy self) (self_mcpServers self)) = 0).
  { clear. induction (self_mcpServers self) as [| [n c] l IH]; [reflexivity |].
    change (@entries _ (own_strategy self) ((n, c) :: l))
      with ((n, @entry _ (own_strategy self) n c)
              :: @entries _ (own_strategy self) l).
    rewrite count_status_cons, IH.
    pose proof (own_entry self n c) as He. cbv zeta in He. unfold has_status.
    destruct (strategy_invocation self c) as [[tools | x] |];
      destruct He as (-> & _); reflexivity. }
  lia.
Qed.

Lemma summary_invariants_witness :
  NoDup (dict_keys (self_mcpServers Sample.end_to_end)) /\
  let s := summary (@run Sample.sample_env Sample.end_to_end) in
  total_servers s = 2 /\
  safe_tools s + unsafe_tools s = total_tools s /\
  total_tools s = completed_tools (servers (@run Sample.sample_env Sample.end_to_end)) /\
  scanned_servers s + failed_servers s
  + count_status "skipped" (servers (@run Sample.sample_env Sample.end_to_end)) = 2 /\
  scanned_servers s + failed_servers s <= total_servers s.
Proof.
  split; [exact end_to_end_names_distinct |].
  exact (@summary_invariants Sample.sample_env Sample.end_to_end
           end_to_end_names_distinct).
Defined.

(** ** Unsupported transports and escaping exceptions *)






(** ** Order independence of a whole run *)

Section RunOrder.
Context `{Env} `{Strategy}.

Lemma aggregate_comm (o o' : result ServerResult) (s : Summary) :
  aggregate o (aggregate o' s) = aggregate o' (aggregate o s).
Proof.
  destruct o as [a | x], o' as [b | y]; cbn.
  - apply update_summary_comm.
  - unfold update_summary, count_failure.
    destruct (String.eqb (sr_status a) "completed");
      [| destruct (String.eqb (sr_status a) "failed")]; reflexivity.
  - unfold update_summary, count_failure.
    destruct (String.eqb (sr_status b) "completed");
      [| destruct (String.eqb (sr_status b) "failed")]; reflexivity.
  - reflexivity.
Qed.

Lemma scan_loop_summary (l : dict ServerConfig) :
  forall r,
    summary (scan_loop l r) =
    fold_left (fun s item => aggregate (dispatch (fst item) (snd item)) s)
      l (summary r).
Proof.
  induction l as [| [n c] l IH]; intros r; [reflexivity |].
  rewrite scan_loop_cons, IH, scan_server_summary. reflexivity.
Qed.

(** The summary of a run does not depend on the order in which the servers
    are listed. *)
Lemma scan_all_servers_summary_permutation (l l' : dict ServerConfig) (r : Results) :
  Permutation l l' ->
  summary (scan_all_servers l r) = summary (scan_all_servers l' r).
Proof.
  intros Hperm. unfold scan_all_servers. rewrite !scan_loop_summary.
  cbn [summary]. rewrite (Permutation_length Hperm).
  apply fold_left_permutation; [| exact Hperm].
  intros a a' b. apply aggregate_comm.
Qed.

End RunOrder.

(** * Further properties of the two scripts *)

(** ** Result normalizer, whole tool results *)

Lemma process_finding_describable (f : RawFinding) :
  describable f = true ->
  exists g, process_finding f = Ok g.
Proof.
  unfold describable, process_finding.
  destruct (rf_description f), (rf_summary f); cbn; intros Hd;
    try discriminate Hd; eexists; reflexivity.
Qed.

Lemma process_finding_undescribable (f : RawFinding) :
  describable f = false ->
  process_finding f = Raise (AttributeError "finding" "summary").
Proof.
  unfold describable, process_finding.
  destruct (rf_description f), (rf_summary f); cbn; intros Hd;
    try discriminate Hd; reflexivity.
Qed.

Lemma map_result_length {A B : Type} (f : A -> result B) (l : list A) :
  forall bs, map_result f l = Ok bs -> List.length bs = List.length l.
Proof.
  induction l as [| a l IH]; cbn; intros bs Hm.
  - inversion Hm. reflexivity.
  - destruct (f a) as [b | e]; cbn in Hm; [| discriminate Hm].
    destruct (map_result f l) as [bs' | e]; cbn in Hm; [| discriminate Hm].
    inversion Hm. cbn. f_equal. now apply IH.
Qed.

Lemma process_findings_describable (fs : list RawFinding) :
  forallb describable fs = true ->
  exists gs, map_result process_finding fs = Ok gs.
Proof.
  induction fs as [| f fs IH]; cbn; intros Hall.
  - eexists; reflexivity.
  - apply andb_true_iff in Hall. destruct Hall as [Hf Hfs].
    destruct (process_finding_describable f Hf) as [g Hg].
    destruct (IH Hfs) as [gs Hgs].
    rewrite Hg. cbn. rewrite Hgs. cbn. eexists; reflexivity.
Qed.

Lemma process_findings_undescribable (fs : list RawFinding) :
  forallb describable fs = false ->
  map_result process_finding fs = Raise (AttributeError "finding" "summary").
Proof.
  induction fs as [| f fs IH]; cbn; intros Hall; [discriminate Hall |].
  destruct (describable f) eqn:Hf; cbn in Hall.
  - destruct (process_finding_describable f Hf) as [g Hg].
    rewrite Hg. cbn. rewrite (IH Hall). reflexivity.
  - rewrite (process_finding_undescribable f Hf). reflexivity.
Qed.

Lemma process_tool_result_ok (tr : RawToolResult) :
  forallb describable (findings tr) = true ->
  exists td,
    process_tool_result tr = Ok td /\
    td_name td = tool_name tr /\
    td_description td = tool_description tr /\
    td_is_safe td = is_safe tr /\
    td_status td = status tr /\
    List.length (td_findings td) = List.length (findings tr).
Proof.
  intros Hall. unfold process_tool_result.
  destruct (process_findings_describable _ Hall) as [gs Hgs].
  rewrite Hgs. cbn. eexists. split; [reflexivity |]. cbn.
  repeat split. now apply (map_result_length process_finding).
Qed.

(** X1: when every finding has a description or a summary,
    [_process_tool_results] answers with one entry per tool result, in the
    same order, each with the name, description, verdict and status of its
    tool result and with as many findings. *)
Theorem process_tool_results_keeps_shape :
  forall tool_results : list RawToolResult,
    all_describable tool_results = true ->
    exists tools,
      _process_tool_results tool_results = Ok tools /\
      List.length tools = List.length tool_results /\
      map td_name tools = map tool_name tool_results /\
      map td_description tools = map tool_description tool_results /\
      map td_is_safe tools = map is_safe tool_results /\
      map td_status tools = map status tool_results /\
      map (fun t => List.length (td_findings t)) tools
      = map (fun tr => List.length (findings tr)) tool_results.
Proof.
  unfold _process_tool_results, all_describable.
  induction tool_results as [| tr trs IH]; cbn; intros Hall.
  - eexists. repeat split; reflexivity.
  - apply andb_true_iff in Hall. destruct Hall as [Htr Htrs].
    destruct (process_tool_result_ok tr Htr) as (td & Htd & Hn & Hd & Hs & Hst & Hf).
    destruct (IH Htrs) as (tds & Htds & Hl & Hns & Hds & Hss & Hsts & Hfs).
    rewrite Htd. cbn. rewrite Htds. cbn.
    eexists. split; [reflexivity |]. cbn.
    rewrite Hl, Hn, Hd, Hs, Hst, Hf, Hns, Hds, Hss, Hsts, Hfs.
    repeat split; reflexivity.
Qed.

Lemma process_tool_results_keeps_shape_witness :
  all_describable [Sample.tool_with_finding; Sample.clean_tool] = true /\
  exists tools,
    _process_tool_results [Sample.tool_with_finding; Sample.clean_tool] = Ok tools /\
    List.length tools = 2 /\
    map td_is_safe tools = [false; true].
Proof.
  split; [reflexivity |].
  destruct (@process_tool_results_keeps_shape
              [Sample.tool_with_finding; Sample.clean_tool] eq_refl)
    as (tools & Hok & Hl & _ & _ & Hs & _).
  exists tools. auto.
Defined.

(** X2: [_process_tool_results] raises exactly when some finding of some
    tool result has neither [description] nor [summary]; the exception is
    then the [AttributeError] of reading [finding.summary], and no tool is
    reported, not even the tools scanned before. *)
Theorem process_tool_results_fails_on_undescribable :
  forall tool_results : list RawToolResult,
    all_describable tool_results = false <->
    _process_tool_results tool_results = Raise (AttributeError "finding" "summary").
Proof.
  intros trs. split.
  - unfold _process_tool_results, all_describable.
    induction trs as [| tr trs IH]; cbn; intros Hall; [discriminate Hall |].
    destruct (forallb describable (findings tr)) eqn:Htr; cbn in Hall.
    + destruct (process_tool_result_ok tr Htr) as (td & Htd & _).
      rewrite Htd. cbn. rewrite (IH Hall). reflexivity.
    + unfold process_tool_result.
      rewrite (process_findings_undescribable _ Htr). reflexivity.
  - intros Hraise. destruct (all_describable trs) eqn:Hall; [| reflexivity].
    destruct (process_tool_results_keeps_shape trs Hall) as (tools & Hok & _).
    congruence.
Qed.


(** ** Requests without credential *)

(** X3: the scan goes unauthenticated, without any error, exactly when
    [headers] is an object with no [Authorization] key (the key is matched
    with its case) or with a string under it that does not start with
    [Bearer ], or when [headers] is a string or a list in which
    [Authorization] does not occur. *)
Theorem no_credential_cases :
  forall server_config : ServerConfig,
    extract_auth server_config = Ok None <->
    match dict_get "headers" (JObj []) server_config with
    | JObj d =>
        match dict_lookup "Authorization" d with
        | None => True
        | Some (JStr v) => startswith "Bearer " v = false
        | Some _ => False
        end
    | JStr s => contains "Authorization" s = false
    | JArr items =>
        existsb (fun v => match v with
                          | JStr s => String.eqb s "Authorization"
                          | _ => false
                          end) items = false
    | _ => False
    end.
Proof.
  intros c. unfold extract_auth.
  destruct (dict_get "headers" (JObj []) c) as [| b | n | l | s | items | d];
    cbv [has_authorization authorization_item bind dict_item];
    try (split; [discriminate | contradiction]).
  - destruct (contains "Authorization" s); split; congruence.
  - destruct (existsb _ items); split; congruence.
  - destruct (dict_lookup "Authorization" d) as [v |]; [| tauto].
    destruct v as [| b | n | l | s | items | d'];
      try (split; [discriminate | contradiction]).
    destruct (startswith "Bearer " s); split; congruence.
Qed.


(** ** The loop, for any strategies *)

Section LoopMore.
Context `{Env} `{Strategy}.





End LoopMore.




(** ** Summary and detail tree of a run *)

Section OwnTree.
Context `{Env}.
Variable self : MCPSecurityScanner.




End OwnTree.



(** ** The document as loaded *)

Section DocumentFacts.
Context `{Env} `{Strategy}.




End DocumentFacts.


